(** * app.py: persona resolver, prompt assembly and the submission handler

    A shallow embedding of [src/app.py], a Streamlit form that forwards
    the user's text and a selected expert persona to a hosted chat model.

    Python [str] values are sequences of Unicode code points, so a string
    is a [list N] here: [str.strip] and dictionary lookup work on code
    points, and U+3000 (the ideographic space a Japanese keyboard
    produces) is one element, as it is for Python.  String literals of the
    source are written as Rocq strings, which hold the UTF-8 bytes of the
    literal, and decoded by [lit]. *)

From Stdlib Require Import NArith ZArith QArith String Ascii.
From stdpp Require Import base option list gmap strings pretty.

Local Open Scope N_scope.

(** ** Python strings *)

Abbreviation str := (list N).

(** UTF-8 decoding of a well-formed byte sequence: [need] continuation
    bytes are still expected for the code point accumulated in [acc]. *)
Fixpoint utf8_decode (need : nat) (acc : N) (bs : list N) : str :=
  match bs with
  | [] => []
  | b :: bs' =>
      match need with
      | O =>
          if b <? 0x80 then b :: utf8_decode 0 0 bs'
          else if b <? 0xE0 then utf8_decode 1 (N.land b 0x1F) bs'
          else if b <? 0xF0 then utf8_decode 2 (N.land b 0x0F) bs'
          else utf8_decode 3 (N.land b 0x07) bs'
      | S O => (acc * 64 + N.land b 0x3F) :: utf8_decode 0 0 bs'
      | S n => utf8_decode n (acc * 64 + N.land b 0x3F) bs'
      end
  end.

(** The Python string denoted by a literal of the source. *)
Definition lit (s : string) : str :=
  utf8_decode 0 0 (N_of_ascii <$> list_ascii_of_string s).

(** [str.isspace] on one character: the code points CPython's
    [_PyUnicode_IsWhitespace] accepts. *)
Definition isspace (c : N) : bool :=
  (0x09 <=? c) && (c <=? 0x0D) || (0x1C <=? c) && (c <=? 0x20)
  || (c =? 0x85) || (c =? 0xA0) || (c =? 0x1680)
  || (0x2000 <=? c) && (c <=? 0x200A)
  || (c =? 0x2028) || (c =? 0x2029) || (c =? 0x202F)
  || (c =? 0x205F) || (c =? 0x3000).

Fixpoint lstrip (s : str) : str :=
  match s with
  | [] => []
  | c :: s' => if isspace c then lstrip s' else s
  end.

Definition rstrip (s : str) : str := reverse (lstrip (reverse s)).

(** [s.strip()]: leading and trailing whitespace removed. *)
Definition strip (s : str) : str := rstrip (lstrip s).

(** Truth value of a string: [not s] holds exactly for the empty one. *)
Definition str_truthy (s : str) : bool :=
  match s with [] => false | _ :: _ => true end.

(** ** The values a credential lookup can yield

    [os.getenv] yields [None] or a string; an entry of the secrets store
    is a TOML value (strings, integers and booleans are modelled). *)
Inductive value : Type :=
| VNone
| VStr (s : str)
| VInt (z : Z)
| VBool (b : bool).

(** [bool(v)]. *)
Definition truthy (v : value) : bool :=
  match v with
  | VNone => false
  | VStr s => str_truthy s
  | VInt z => negb (z =? 0)%Z
  | VBool b => b
  end.

(** ** Persona resolver *)

Module Persona.

Definition data_scientist : str := lit "データサイエンティスト".
Definition product_manager : str := lit "プロダクトマネージャー".

Definition data_scientist_instruction : str :=
  lit "あなたは一流のデータサイエンティストです。"
  ++ lit "前提・仮説・検証手法・評価指標・限界を順序立てて説明し、"
  ++ lit "必要なら簡潔な数式や疑似コードも示してください。"
  ++ lit "専門用語は中高生にも伝わるよう短く補足してください。".

Definition product_manager_instruction : str :=
  lit "あなたは熟練のプロダクトマネージャーです。"
  ++ lit "ユーザ課題→解決案→成功指標(KPI)→リスク/代替案→次アクションの順で提案してください。"
  ++ lit "箇条書きを基本に、過度に長文にしないでください。".

Definition fallback_instruction : str :=
  lit "あなたは有能なアシスタントです。簡潔かつ正確に答えてください。".

End Persona.

(** The dict literal of [system_message_for], entries in source order. *)
Definition presets : gmap (list N) (list N) :=
  <[Persona.product_manager := Persona.product_manager_instruction]>
    (<[Persona.data_scientist := Persona.data_scientist_instruction]> ∅).

(** [presets.get(expert_role, <fallback>)]. *)
Definition system_message_for (expert_role : str) : str :=
  default Persona.fallback_instruction (presets !! expert_role).

(** ** Exceptions, UI events and the effect monad *)

(** The objects a Python [raise] can carry.  [Exception msg] stands for
    an instance of the class [Exception] or of any subclass of it (every
    network, authentication and provider error is one) whose [str(e)] is
    [msg]; [SystemExiting] for the [BaseException]s outside [Exception]
    ([KeyboardInterrupt], [SystemExit], [GeneratorExit]). *)
Inductive BaseException : Type :=
| Exception (msg : str)
| SystemExiting (msg : str).

(** The client object built by [ChatOpenAI(model=..., temperature=...)]. *)
Record ChatOpenAI : Type := mkChatOpenAI {
  model : str;
  temperature : Q
}.

(** Chat messages, by role. *)
Inductive Message : Type :=
| SystemMessage (content : str)
| HumanMessage (content : str)
| AIMessage (content : str).

(** What one run of the script does that can be seen from outside: the
    Streamlit elements it writes, and the request it sends to the model
    provider. *)
Inductive event : Type :=
| st_warning (body : str)
| st_error (body : str)
| st_info (body : str)
| st_markdown (body : str)
| st_write (body : str)
| st_spinner (text : str)
| llm_request (llm : ChatOpenAI) (messages : list Message).

(** A computation writes events and then returns or raises. *)
Definition M (A : Type) : Type := list event * (BaseException + A).

Definition trace {A : Type} (m : M A) : list event := m.1.
Definition outcome {A : Type} (m : M A) : BaseException + A := m.2.

#[global] Instance M_ret : MRet M := fun A a => ([], inr a).

#[global] Instance M_bind : MBind M := fun A B k m =>
  match m with
  | (tr, inl e) => (tr, inl e)
  | (tr, inr a) => let '(tr', r) := k a in (tr ++ tr', r)
  end.

#[global] Instance M_fmap : FMap M := fun A B f m =>
  match m with
  | (tr, inl e) => (tr, inl e)
  | (tr, inr a) => (tr, inr (f a))
  end.

Definition emit (ev : event) : M unit := ([ev], inr tt).

Definition emit_all (evs : list event) : M unit := (evs, inr tt).

Definition raise {A : Type} (e : BaseException) : M A := ([], inl e).

(** [try: body / except Exception as e: handler(e)]: only instances of
    [Exception] are caught, [e] is bound to the message [str(e)] yields. *)
Definition try_except_Exception {A : Type} (body : M A) (handler : str -> M A) : M A :=
  match body with
  | (tr, inl (Exception msg)) => let '(tr', r) := handler msg in (tr ++ tr', r)
  | _ => body
  end.

(** ** Prompt templates

    [ChatPromptTemplate] formats each message template with Python's
    [str.format] rules: [{name}] is replaced by the value bound to [name],
    a doubled brace stands for one brace, and everything else is copied.
    Replacement fields are plain names, the only form the source uses;
    conversions and format specifications are not modelled. *)

(** A value or the exception raised instead of it. *)
Definition map_result {A B : Type} (f : A -> B) (r : BaseException + A)
  : BaseException + B :=
  match r with
  | inl e => inl e
  | inr a => inr (f a)
  end.

Definition lbrace : N := 0x7B.
Definition rbrace : N := 0x7D.

Inductive fstate : Type :=
| Text
| Open
| Field (name : str)
| Close.

Fixpoint format_from (st : fstate) (kwargs : gmap (list N) (list N)) (t : str)
  : BaseException + str :=
  match t with
  | [] =>
      match st with
      | Text => inr []
      | Open => inl (Exception (lit "Single '{' encountered in format string"))
      | Field _ => inl (Exception (lit "expected '}' before end of string"))
      | Close => inl (Exception (lit "Single '}' encountered in format string"))
      end
  | c :: t' =>
      match st with
      | Text =>
          if c =? lbrace then format_from Open kwargs t'
          else if c =? rbrace then format_from Close kwargs t'
          else map_result (cons c) (format_from Text kwargs t')
      | Open =>
          if c =? lbrace then map_result (cons lbrace) (format_from Text kwargs t')
          else if c =? rbrace then inl (Exception (lit "Replacement index 0 out of range"))
          else format_from (Field [c]) kwargs t'
      | Field name =>
          if c =? rbrace then
            match kwargs !! name with
            | Some v => map_result (app v) (format_from Text kwargs t')
            | None => inl (Exception (lit "'" ++ name ++ lit "'"))
            end
          else if c =? lbrace then inl (Exception (lit "unexpected '{' in field name"))
          else format_from (Field (name ++ [c])) kwargs t'
      | Close =>
          if c =? rbrace then map_result (cons rbrace) (format_from Text kwargs t')
          else inl (Exception (lit "Single '}' encountered in format string"))
      end
  end.

(** [str.format] with keyword arguments [kwargs]. *)
Definition format (template : str) (kwargs : gmap (list N) (list N))
  : BaseException + str :=
  format_from Text kwargs template.

Definition lift {A : Type} (r : BaseException + A) : M A := ([], r).

Inductive Role : Type := system | human | ai.

(** The role names [from_messages] accepts in a [(role, template)] pair. *)
Definition role_of (name : str) : option Role :=
  if decide (name = lit "system") then Some system
  else if decide (name = lit "human") then Some human
  else if decide (name = lit "user") then Some human
  else if decide (name = lit "ai") then Some ai
  else if decide (name = lit "assistant") then Some ai
  else None.

Definition message_of (r : Role) (content : str) : Message :=
  match r with
  | system => SystemMessage content
  | human => HumanMessage content
  | ai => AIMessage content
  end.

Definition content_of (m : Message) : str :=
  match m with
  | SystemMessage c | HumanMessage c | AIMessage c => c
  end.

(** [ChatPromptTemplate.from_messages]. *)
Definition from_messages (messages : list (str * str)) : M (list (Role * str)) :=
  mapM (fun '(name, template) =>
          match role_of name with
          | Some r => mret (r, template)
          | None => raise (Exception (lit "Unexpected message type: " ++ name))
          end) messages.

(** [prompt.invoke(input)]: every template formatted, in order. *)
Definition prompt_invoke (prompt : list (Role * str)) (input : gmap (list N) (list N))
  : M (list Message) :=
  mapM (fun '(r, template) => message_of r <$> lift (format template input)) prompt.


(** ** Credential lookup and the texts of the page *)

Definition OPENAI_API_KEY : str := lit "OPENAI_API_KEY".

(** [os.getenv(name)], on the environment as [load_dotenv()] left it. *)
Definition os_getenv (environ : gmap (list N) (list N)) (name : str) : value :=
  match environ !! name with
  | Some v => VStr v
  | None => VNone
  end.

(** The secrets store of the Streamlit process: either no secrets file
    was found, and reading the store raises an error whose text is
    [error], or the file was found and holds [entries]. *)
Inductive secrets_store : Type :=
| NoSecretsFile (error : str)
| SecretsFile (entries : gmap (list N) value).

(** [str(z)] for an integer. *)
Definition str_of_int (z : Z) : str :=
  N_of_ascii <$> list_ascii_of_string (pretty z).

(** Reading the store also writes its root-level string and number
    entries into [os.environ]; booleans are not written. *)
Definition exported (v : value) : option str :=
  match v with
  | VStr s => Some s
  | VInt z => Some (str_of_int z)
  | VNone | VBool _ => None
  end.

Definition export (entries : gmap (list N) value) (environ : gmap (list N) (list N))
  : gmap (list N) (list N) :=
  omap exported entries ∪ environ.

(** [st.secrets.get(name, fallback)]: the environment it leaves, and
    the value found or the exception raised.  [Mapping.get] turns a
    missing key into [fallback]; the error of a missing secrets file is
    not a [KeyError] and passes through. *)
Definition secrets_get (environ : gmap (list N) (list N)) (secrets : secrets_store)
    (name : str) (fallback : value)
  : gmap (list N) (list N) * (BaseException + value) :=
  match secrets with
  | NoSecretsFile error => (environ, inl (Exception error))
  | SecretsFile entries =>
      (export entries environ, inr (default fallback (entries !! name)))
  end.

(** [os.getenv(..) or st.secrets.get(.., None)]: the store is read only
    when the environment value is falsy. *)
Definition credential_lookup (environ : gmap (list N) (list N))
    (secrets : secrets_store)
  : gmap (list N) (list N) * (BaseException + value) :=
  let found := os_getenv environ OPENAI_API_KEY in
  if truthy found then (environ, inr found)
  else secrets_get environ secrets OPENAI_API_KEY VNone.

(** The value [api_key_exists] is bound to, or the exception that the
    assignment raises. *)
Definition api_key_exists (environ : gmap (list N) (list N))
    (secrets : secrets_store) : BaseException + bool :=
  map_result truthy (credential_lookup environ secrets).2.

(** [os.environ] once the assignment has run. *)
Definition os_environ_after (environ : gmap (list N) (list N))
    (secrets : secrets_store) : gmap (list N) (list N) :=
  (credential_lookup environ secrets).1.

Module Text.
Definition empty_input : str := lit "入力テキストを入力してください。".
Definition missing_key : str :=
  lit "OpenAI API キーが見つかりませんでした。ローカルは `.env`、デプロイは Secrets に `OPENAI_API_KEY` を設定してください。".
Definition spinner : str := lit "LLM に問い合わせています…".
Definition answer_heading : str := lit "### :brain: 回答".
Definition failure_prefix : str := lit "エラーが発生しました: ".
Definition troubleshooting : str :=
  lit "API キー、モデル名、ネットワーク、依存関係バージョン（langchain / langchain-openai）をご確認ください。".
End Text.

(** ** The completion call *)

(** The text of the [OpenAIError] the client raises when it is built
    without a key. *)
Definition api_key_not_set : str :=
  lit "The api_key client option must be set either by passing api_key to the client or by setting the OPENAI_API_KEY environment variable".

(** [ChatOpenAI(model=.., temperature=..)]: no key is passed, so the
    client takes it from [os.environ] and raises when none is there. *)
Definition ChatOpenAI_init (environ : gmap (list N) (list N)) (model : str)
    (temperature : Q) : BaseException + ChatOpenAI :=
  match environ !! OPENAI_API_KEY with
  | Some _ => inr (mkChatOpenAI model temperature)
  | None => inl (Exception api_key_not_set)
  end.

Section Completion.

(** The hosted model as the client reaches it.  For the process
    environment (key, base URL, organisation, proxy), a client and a
    conversation it tells how often the client sends the request again
    after the first time (its default retries on connection failures
    and server errors) and what the call finally yields: the generated
    text, or the exception raised. *)
Variable endpoint :
  gmap (list N) (list N) -> ChatOpenAI -> list Message -> nat * (BaseException + str).

(** [llm.invoke(messages)]: the request goes out, once or more; the
    reply is a message of the assistant. *)
Definition llm_invoke (environ : gmap (list N) (list N)) (llm : ChatOpenAI)
    (messages : list Message) : M Message :=
  let '(resends, reply) := endpoint environ llm messages in
  emit_all (replicate (S resends) (llm_request llm messages));;
  AIMessage <$> lift reply.

(** [StrOutputParser().invoke(message)]. *)
Definition StrOutputParser (message : Message) : M str :=
  mret (content_of message).

(** [(prompt | llm | StrOutputParser()).invoke(input)]. *)
Definition chain_invoke (environ : gmap (list N) (list N))
    (prompt : list (Role * str)) (llm : ChatOpenAI)
    (input : gmap (list N) (list N)) : M str :=
  messages ← prompt_invoke prompt input;
  reply ← llm_invoke environ llm messages;
  StrOutputParser reply.

(** [generate_response(user_text, expert_role)], run in a process whose
    environment is [environ]. *)
Definition generate_response (environ : gmap (list N) (list N))
    (user_text expert_role : str) : M str :=
  llm ← lift (ChatOpenAI_init environ (lit "gpt-4o-mini") 0.2);
  prompt ← from_messages
    [ (lit "system", system_message_for expert_role);
      (lit "human", lit "{input_text}") ];
  chain_invoke environ prompt llm {[ lit "input_text" := user_text ]}.

(** ** The submission handler *)

(** The script from the credential check on (the statements after the
    form), for the values the widgets hold in this run: the selected
    [role], the text area's [user_text] and whether the form was
    [submitted].  The credential check is an assignment at the top
    level: it runs on every run, before the form's state is looked
    at. *)
Definition submission_handler (environ : gmap (list N) (list N))
    (secrets : secrets_store) (role user_text : str) (submitted : bool)
  : M unit :=
  api_key_exists ← lift (api_key_exists environ secrets);
  let environ := os_environ_after environ secrets in
  if submitted then
    if negb (str_truthy (strip user_text)) then
      emit (st_warning Text.empty_input)
    else if negb api_key_exists then
      emit (st_error Text.missing_key)
    else
      emit (st_spinner Text.spinner);;
      try_except_Exception
        (answer ← generate_response environ user_text role;
         emit (st_markdown Text.answer_heading);;
         emit (st_write answer))
        (fun e =>
           emit (st_error (Text.failure_prefix ++ e));;
           emit (st_info Text.troubleshooting))
  else mret tt.

End Completion.

(** ** What a run requested from the provider *)

Definition client_of (ev : event) : option ChatOpenAI :=
  match ev with llm_request llm _ => Some llm | _ => None end.

(** The clients the run's requests were made with, in order. *)
Definition clients {A : Type} (m : M A) : list ChatOpenAI :=
  omap client_of (trace m).

(** The client [generate_response] builds. *)
Definition llm : ChatOpenAI := mkChatOpenAI (lit "gpt-4o-mini") 0.2.

(** The conversations the run's requests carried, in order. *)
Definition conversation_of (ev : event) : option (list Message) :=
  match ev with llm_request _ messages => Some messages | _ => None end.

Definition conversations {A : Type} (m : M A) : list (list Message) :=
  omap conversation_of (trace m).

(** Providers to run the script against: one that always answers with
    [text], one whose every call raises [e], and one whose call raises
    [e] after the client has sent the request again [resends] times. *)
Definition answering (text : str)
  : gmap (list N) (list N) -> ChatOpenAI -> list Message -> nat * (BaseException + str) :=
  fun _ _ _ => (0%nat, inr text).

Definition failing (e : BaseException)
  : gmap (list N) (list N) -> ChatOpenAI -> list Message -> nat * (BaseException + str) :=
  fun _ _ _ => (0%nat, inl e).

Definition unreachable (resends : nat) (e : BaseException)
  : gmap (list N) (list N) -> ChatOpenAI -> list Message -> nat * (BaseException + str) :=
  fun _ _ _ => (resends, inl e).

(** A character of a template that is copied as it is. *)
Definition plain (c : N) : bool := negb (c =? lbrace) && negb (c =? rbrace).

(** ** The role selector and what a run shows *)

(** The [options] of the [st.radio] role selector, the two labels that
    are also the keys of [presets]: the widget returns one of them. *)
Definition role_options : list str :=
  [Persona.data_scientist; Persona.product_manager].

Definition warning_of (ev : event) : option str :=
  match ev with st_warning body => Some body | _ => None end.

Definition error_of (ev : event) : option str :=
  match ev with st_error body => Some body | _ => None end.

Definition answer_of (ev : event) : option str :=
  match ev with st_write body => Some body | _ => None end.

(** The warning banners, the error banners and the answers written by
    a run, in order. *)
Definition warnings {A : Type} (m : M A) : list str := omap warning_of (trace m).
Definition errors {A : Type} (m : M A) : list str := omap error_of (trace m).
Definition answers {A : Type} (m : M A) : list str := omap answer_of (trace m).

(** * Properties *)

Example lit_ascii : lit "hello" = [104; 101; 108; 108; 111].
Proof. reflexivity. Qed.

Example lit_kana : lit "デA　" = [0x30C7; 0x41; 0x3000].
Proof. reflexivity. Qed.

(** ** Whitespace *)

Lemma lstrip_nil_iff (s : str) : lstrip s = [] <-> forallb isspace s = true.
Proof.
  induction s as [|c s IH]; simpl; [tauto|].
  destruct (isspace c); simpl; [exact IH|].
  split; discriminate.
Qed.

Lemma forallb_isspace_reverse (s : str) :
  forallb isspace (reverse s) = forallb isspace s.
Proof.
  induction s as [|c s IH]; [reflexivity|].
  rewrite reverse_cons, forallb_app, IH. simpl.
  rewrite andb_true_r. apply andb_comm.
Qed.

Lemma lstrip_head (s : str) :
  match lstrip s with
  | [] => True
  | c :: _ => isspace c = false
  end.
Proof.
  induction s as [|c s IH]; simpl; [exact I|].
  destruct (isspace c) eqn:E; [exact IH | exact E].
Qed.

Lemma strip_nil_iff (s : str) : strip s = [] <-> forallb isspace s = true.
Proof.
  unfold strip, rstrip. rewrite <- lstrip_nil_iff. split.
  - intros H. apply (f_equal reverse) in H.
    rewrite reverse_involutive in H. change (reverse []) with (@nil N) in H.
    apply lstrip_nil_iff in H. rewrite forallb_isspace_reverse in H.
    pose proof (lstrip_head s) as Hh.
    destruct (lstrip s) as [|c t]; [reflexivity|].
    simpl in H. rewrite Hh in H. discriminate.
  - intros ->. reflexivity.
Qed.

Lemma blank_not_truthy (s : str) :
  str_truthy (strip s) = negb (forallb isspace s).
Proof.
  pose proof (strip_nil_iff s) as [H1 H2].
  destruct (strip s) as [|c t] eqn:E; simpl.
  - rewrite H1; reflexivity.
  - destruct (forallb isspace s); [|reflexivity].
    discriminate H2; reflexivity.
Qed.

(** ** The persona table *)

Lemma personas_differ : Persona.data_scientist <> Persona.product_manager.
Proof. vm_compute. discriminate. Qed.

Lemma system_message_for_data_scientist :
  system_message_for Persona.data_scientist = Persona.data_scientist_instruction.
Proof.
  unfold system_message_for, presets.
  rewrite lookup_insert_ne by (apply not_eq_sym, personas_differ).
  rewrite lookup_insert_eq. reflexivity.
Qed.

Lemma system_message_for_product_manager :
  system_message_for Persona.product_manager = Persona.product_manager_instruction.
Proof.
  unfold system_message_for, presets.
  rewrite lookup_insert_eq. reflexivity.
Qed.

Lemma system_message_for_other (expert_role : str) :
  expert_role <> Persona.data_scientist ->
  expert_role <> Persona.product_manager ->
  system_message_for expert_role = Persona.fallback_instruction.
Proof.
  intros Hd Hp. unfold system_message_for, presets.
  rewrite !lookup_insert_ne by (apply not_eq_sym; assumption).
  rewrite lookup_empty. reflexivity.
Qed.

(** The resolver has three possible answers. *)
Lemma system_message_for_cases (expert_role : str) :
  system_message_for expert_role = Persona.data_scientist_instruction
  \/ system_message_for expert_role = Persona.product_manager_instruction
  \/ system_message_for expert_role = Persona.fallback_instruction.
Proof.
  destruct (decide (expert_role = Persona.data_scientist)) as [->|Hd].
  { left. apply system_message_for_data_scientist. }
  destruct (decide (expert_role = Persona.product_manager)) as [->|Hp].
  { right; left. apply system_message_for_product_manager. }
  right; right. apply system_message_for_other; assumption.
Qed.

(** ** Template formatting *)

Lemma plain_inv (c : N) :
  plain c = true -> (c =? lbrace) = false /\ (c =? rbrace) = false.
Proof.
  unfold plain. intros H. apply andb_true_iff in H as [H1 H2].
  split; apply negb_true_iff; assumption.
Qed.

(** A template without braces is its own rendering. *)
Lemma format_plain (kwargs : gmap (list N) (list N)) (t : str) :
  forallb plain t = true -> format t kwargs = inr t.
Proof.
  unfold format. induction t as [|c t IH]; simpl; [reflexivity|].
  intros H. apply andb_true_iff in H as [Hc Ht].
  destruct (plain_inv c Hc) as [-> ->].
  rewrite (IH Ht). reflexivity.
Qed.

Lemma format_from_field (kwargs : gmap (list N) (list N)) (rest seen v : str) :
  forallb plain rest = true ->
  kwargs !! (seen ++ rest) = Some v ->
  format_from (Field seen) kwargs (rest ++ [rbrace]) = inr v.
Proof.
  revert seen. induction rest as [|c rest IH]; intros seen Hp Hk; simpl.
  - rewrite app_nil_r in Hk. rewrite Hk. simpl. rewrite app_nil_r. reflexivity.
  - simpl in Hp. apply andb_true_iff in Hp as [Hc Hr].
    destruct (plain_inv c Hc) as [-> ->].
    apply IH; [assumption|]. rewrite <- app_assoc. exact Hk.
Qed.

(** A template that is one replacement field renders as the value bound
    to the field's name, whatever that value contains. *)
Lemma format_one_field (kwargs : gmap (list N) (list N)) (c : N) (rest v : str) :
  forallb plain (c :: rest) = true ->
  kwargs !! (c :: rest) = Some v ->
  format (lbrace :: c :: rest ++ [rbrace]) kwargs = inr v.
Proof.
  intros Hp Hk. unfold format. simpl in *.
  apply andb_true_iff in Hp as [Hc Hr].
  destruct (plain_inv c Hc) as [-> ->].
  apply format_from_field; assumption.
Qed.

Lemma format_input_text (user_text : str) :
  format (lit "{input_text}") {[ lit "input_text" := user_text ]} = inr user_text.
Proof.
  set (kw := {[ lit "input_text" := user_text ]}).
  assert (Hk : kw !! lit "input_text" = Some user_text) by apply lookup_singleton_eq.
  clearbody kw. revert Hk.
  change (lit "input_text") with (105 :: lit "nput_text").
  change (lit "{input_text}") with (lbrace :: 105 :: lit "nput_text" ++ [rbrace]).
  intros Hk. apply format_one_field; [reflexivity | exact Hk].
Qed.

Lemma instructions_plain (expert_role : str) :
  forallb plain (system_message_for expert_role) = true.
Proof.
  destruct (system_message_for_cases expert_role) as [-> | [-> | ->]];
    vm_compute; reflexivity.
Qed.

Lemma role_of_system : role_of (lit "system") = Some system.
Proof. vm_compute. reflexivity. Qed.

Lemma role_of_human : role_of (lit "human") = Some human.
Proof. vm_compute. reflexivity. Qed.

(** ** One call of [generate_response] *)

(** The constructor comes first: without a key in the environment it
    raises and nothing is sent.  Otherwise the prompt is assembled and
    the request goes out, once or more, always with [llm] and the
    two-message conversation; the reply or failure of the call is the
    function's own. *)
Lemma generate_response_run
    (endpoint : gmap (list N) (list N) -> ChatOpenAI -> list Message
                -> nat * (BaseException + str))
    (environ : gmap (list N) (list N)) (user_text expert_role : str) :
  let conversation :=
    [SystemMessage (system_message_for expert_role); HumanMessage user_text] in
  generate_response endpoint environ user_text expert_role
  = match environ !! OPENAI_API_KEY with
    | Some _ =>
        (replicate (S (endpoint environ llm conversation).1)
           (llm_request llm conversation),
         (endpoint environ llm conversation).2)
    | None => ([], inl (Exception api_key_not_set))
    end.
Proof.
  intros conversation. unfold generate_response, ChatOpenAI_init.
  destruct (environ !! OPENAI_API_KEY) as [key|]; [|reflexivity].
  unfold from_messages. cbn [mapM]. rewrite role_of_system, role_of_human.
  unfold chain_invoke, prompt_invoke, llm_invoke, StrOutputParser.
  cbv [mapM mbind mret M_bind M_ret fmap M_fmap lift emit emit_all].
  rewrite format_input_text.
  rewrite format_plain by apply instructions_plain.
  cbv [message_of]. fold conversation. fold llm.
  destruct (endpoint environ llm conversation) as [resends [e|text]];
    cbn [app fst snd content_of]; rewrite ?app_nil_r; reflexivity.
Qed.

(** ** What the requests of a run contribute to its projections *)

Lemma omap_replicate_None {A B : Type} (f : A -> option B) (n : nat) (x : A) :
  f x = None -> omap f (replicate n x) = [].
Proof.
  intros Hx. induction n as [|n IH]; [reflexivity|].
  cbn [replicate omap list_omap]. rewrite Hx. exact IH.
Qed.

Lemma omap_replicate_Some {A B : Type} (f : A -> option B) (n : nat) (x : A) (y : B) :
  f x = Some y -> omap f (replicate n x) = replicate n y.
Proof.
  intros Hx. induction n as [|n IH]; [reflexivity|].
  cbn [replicate omap list_omap]. rewrite Hx, IH. reflexivity.
Qed.

Lemma conversations_of_requests (n : nat) (llm : ChatOpenAI) (messages : list Message) :
  omap conversation_of (replicate n (llm_request llm messages)) = replicate n messages.
Proof. apply omap_replicate_Some. reflexivity. Qed.

Lemma clients_of_requests (n : nat) (llm : ChatOpenAI) (messages : list Message) :
  omap client_of (replicate n (llm_request llm messages)) = replicate n llm.
Proof. apply omap_replicate_Some. reflexivity. Qed.

Lemma requests_show_nothing (n : nat) (llm : ChatOpenAI) (messages : list Message) :
  omap warning_of (replicate n (llm_request llm messages)) = []
  /\ omap error_of (replicate n (llm_request llm messages)) = []
  /\ omap answer_of (replicate n (llm_request llm messages)) = [].
Proof. repeat split; apply omap_replicate_None; reflexivity. Qed.

Lemma requests_no_warning (n : nat) (llm : ChatOpenAI) (messages : list Message) :
  omap warning_of (replicate n (llm_request llm messages)) = [].
Proof. apply requests_show_nothing. Qed.

Lemma requests_no_error (n : nat) (llm : ChatOpenAI) (messages : list Message) :
  omap error_of (replicate n (llm_request llm messages)) = [].
Proof. apply requests_show_nothing. Qed.

Lemma requests_no_answer (n : nat) (llm : ChatOpenAI) (messages : list Message) :
  omap answer_of (replicate n (llm_request llm messages)) = [].
Proof. apply requests_show_nothing. Qed.

(** ** The credential lookup *)

Lemma lookup_found_in_environ (environ : gmap (list N) (list N))
    (secrets : secrets_store) (c : N) (key : str) :
  environ !! OPENAI_API_KEY = Some (c :: key) ->
  credential_lookup environ secrets = (environ, inr (VStr (c :: key))).
Proof.
  intros He. unfold credential_lookup, os_getenv. rewrite He. reflexivity.
Qed.

Lemma lookup_reads_store (environ : gmap (list N) (list N))
    (secrets : secrets_store) :
  truthy (os_getenv environ OPENAI_API_KEY) = false ->
  credential_lookup environ secrets
  = secrets_get environ secrets OPENAI_API_KEY VNone.
Proof. intros He. unfold credential_lookup. rewrite He. reflexivity. Qed.

Lemma getenv_falsy (environ : gmap (list N) (list N)) :
  truthy (os_getenv environ OPENAI_API_KEY) = false
  <-> environ !! OPENAI_API_KEY = None \/ environ !! OPENAI_API_KEY = Some [].
Proof.
  unfold os_getenv. destruct (environ !! OPENAI_API_KEY) as [[|c key]|];
    cbn [truthy str_truthy]; split.
  - intros _. right. reflexivity.
  - reflexivity.
  - discriminate.
  - intros [H|H]; discriminate.
  - intros _. left. reflexivity.
  - reflexivity.
Qed.

(** Without a usable key in the environment and without a secrets
    file, the assignment of [api_key_exists] raises. *)
Lemma lookup_without_secrets_file (environ : gmap (list N) (list N)) (error : str) :
  truthy (os_getenv environ OPENAI_API_KEY) = false ->
  api_key_exists environ (NoSecretsFile error) = inl (Exception error).
Proof.
  intros He. unfold api_key_exists. rewrite lookup_reads_store by assumption.
  reflexivity.
Qed.

(** ** Every run of the script *)

(** A run, by cases on what it was given, in terms of the call of
    [generate_response] it makes. *)
Lemma handler_shape
    (endpoint : gmap (list N) (list N) -> ChatOpenAI -> list Message
                -> nat * (BaseException + str))
    (environ : gmap (list N) (list N)) (secrets : secrets_store)
    (role user_text : str) (submitted : bool) :
  let call :=
    generate_response endpoint (os_environ_after environ secrets) user_text role in
  submission_handler endpoint environ secrets role user_text submitted
  = match api_key_exists environ secrets with
    | inl e => ([], inl e)
    | inr found =>
        if submitted then
          if forallb isspace user_text then ([st_warning Text.empty_input], inr tt)
          else if found then
            match outcome call with
            | inr answer =>
                (st_spinner Text.spinner
                   :: trace call ++ [st_markdown Text.answer_heading; st_write answer],
                 inr tt)
            | inl (Exception msg) =>
                (st_spinner Text.spinner
                   :: trace call ++ [st_error (Text.failure_prefix ++ msg);
                                     st_info Text.troubleshooting],
                 inr tt)
            | inl (SystemExiting msg) =>
                (st_spinner Text.spinner :: trace call, inl (SystemExiting msg))
            end
          else ([st_error Text.missing_key], inr tt)
        else ([], inr tt)
    end.
Proof.
  intros call. unfold submission_handler.
  destruct (api_key_exists environ secrets) as [e|found]; [reflexivity|].
  cbv [lift mbind M_bind]. cbn [app].
  destruct submitted; [|reflexivity].
  rewrite blank_not_truthy.
  destruct (forallb isspace user_text); [reflexivity|]. cbn [negb].
  destruct found; [|reflexivity]. cbn [negb].
  fold call. destruct call as [sent [[msg|msg]|answer]];
    cbv [mbind mret M_bind M_ret try_except_Exception emit trace outcome fst snd];
    cbn [app]; rewrite ?app_nil_r; reflexivity.
Qed.

(** The same with the call spelled out: what is sent, and how the
    run ends. *)
Lemma handler_run
    (endpoint : gmap (list N) (list N) -> ChatOpenAI -> list Message
                -> nat * (BaseException + str))
    (environ : gmap (list N) (list N)) (secrets : secrets_store)
    (role user_text : str) (submitted : bool) :
  let conversation :=
    [SystemMessage (system_message_for role); HumanMessage user_text] in
  let environ' := os_environ_after environ secrets in
  let sent :=
    replicate (S (endpoint environ' llm conversation).1)
      (llm_request llm conversation) in
  submission_handler endpoint environ secrets role user_text submitted
  = match api_key_exists environ secrets with
    | inl e => ([], inl e)
    | inr found =>
        if submitted then
          if forallb isspace user_text then ([st_warning Text.empty_input], inr tt)
          else if found then
            match environ' !! OPENAI_API_KEY with
            | None =>
                ([st_spinner Text.spinner;
                  st_error (Text.failure_prefix ++ api_key_not_set);
                  st_info Text.troubleshooting], inr tt)
            | Some _ =>
                match (endpoint environ' llm conversation).2 with
                | inr answer =>
                    (st_spinner Text.spinner
                       :: sent ++ [st_markdown Text.answer_heading; st_write answer],
                     inr tt)
                | inl (Exception msg) =>
                    (st_spinner Text.spinner
                       :: sent ++ [st_error (Text.failure_prefix ++ msg);
                                   st_info Text.troubleshooting],
                     inr tt)
                | inl (SystemExiting msg) =>
                    (st_spinner Text.spinner :: sent, inl (SystemExiting msg))
                end
            end
          else ([st_error Text.missing_key], inr tt)
        else ([], inr tt)
    end.
Proof.
  intros conversation environ' sent. rewrite handler_shape. cbv zeta.
  fold environ'. rewrite generate_response_run. fold conversation. fold sent.
  destruct (environ' !! OPENAI_API_KEY) as [key|]; reflexivity.
Qed.

(** Case analysis on everything that decides a run, with the requests
    dropped from the projections they do not belong to. *)
Ltac handler_cases endpoint environ secrets user_text submitted :=
  rewrite handler_run; cbv zeta;
  destruct (api_key_exists environ secrets) as [?e|[|]];
  destruct submitted;
  destruct (forallb isspace user_text);
  try destruct (os_environ_after environ secrets !! OPENAI_API_KEY) as [?key|];
  try destruct (endpoint _ _ _) as [?resends [[?msg|?msg]|?answer]];
  unfold clients, conversations, warnings, errors, answers, trace, outcome;
  cbn [fst snd omap list_omap client_of conversation_of warning_of error_of
       answer_of replicate app length];
  rewrite ?omap_app;
  rewrite ?requests_no_warning, ?requests_no_error, ?requests_no_answer,
    ?conversations_of_requests, ?clients_of_requests;
  cbn [omap list_omap client_of conversation_of warning_of error_of answer_of
       app length];
  rewrite ?app_nil_r.

Lemma failure_line_is_not_missing_key (msg : str) :
  Text.failure_prefix ++ msg <> Text.missing_key.
Proof. vm_compute. discriminate. Qed.

Lemma api_key_exists_iff (environ : gmap (list N) (list N))
    (secrets : secrets_store) :
  api_key_exists environ secrets = inr true
  <-> (exists v, environ !! OPENAI_API_KEY = Some v /\ v <> [])
      \/ (exists entries w, secrets = SecretsFile entries
             /\ entries !! OPENAI_API_KEY = Some w /\ truthy w = true).
Proof.
  unfold api_key_exists, credential_lookup, os_getenv, secrets_get.
  destruct (environ !! OPENAI_API_KEY) as [[|c key]|] eqn:Ee;
    cbn [truthy str_truthy].
  - destruct secrets as [error|entries]; cbn [snd map_result].
    + split; [discriminate|].
      intros [(v & Hv & Hne) | (entries & w & Hs & _)]; [|discriminate].
      injection Hv as <-. contradiction.
    + destruct (entries !! OPENAI_API_KEY) as [w|] eqn:Es; cbn [default].
      * split.
        -- intros H. injection H as H. right. exists entries, w. auto.
        -- intros [(v & Hv & Hne) | (entries' & w' & Hs & Hw & Ht)].
           ++ injection Hv as <-. contradiction.
           ++ injection Hs as <-. rewrite Es in Hw. injection Hw as Hw.
              subst. cbv [id]. rewrite Ht. reflexivity.
      * split; [discriminate|].
        intros [(v & Hv & Hne) | (entries' & w' & Hs & Hw & _)].
        -- injection Hv as <-. contradiction.
        -- injection Hs as <-. rewrite Es in Hw. discriminate.
  - split; [|reflexivity].
    intros _. left. exists (c :: key). split; [reflexivity | discriminate].
  - destruct secrets as [error|entries]; cbn [snd map_result].
    + split; [discriminate|].
      intros [(v & Hv & _) | (entries & w & Hs & _)]; discriminate.
    + destruct (entries !! OPENAI_API_KEY) as [w|] eqn:Es; cbn [default].
      * split.
        -- intros H. injection H as H. right. exists entries, w. auto.
        -- intros [(v & Hv & _) | (entries' & w' & Hs & Hw & Ht)]; [discriminate|].
           injection Hs as <-. rewrite Es in Hw. injection Hw as Hw.
           subst. cbv [id]. rewrite Ht. reflexivity.
      * split; [discriminate|].
        intros [(v & Hv & _) | (entries' & w' & Hs & Hw & _)]; [discriminate|].
        injection Hs as <-. rewrite Es in Hw. discriminate.
Qed.

(** With the key in neither place, but a secrets file to read, the
    guard evaluates to [False]. *)
Lemma api_key_absent (environ : gmap (list N) (list N))
    (entries : gmap (list N) value) :
  environ !! OPENAI_API_KEY = None ->
  entries !! OPENAI_API_KEY = None ->
  api_key_exists environ (SecretsFile entries) = inr false.
Proof.
  intros He Hs. unfold api_key_exists, credential_lookup, os_getenv, secrets_get.
  rewrite He. cbn [truthy snd]. rewrite Hs. reflexivity.
Qed.

(** With no usable key in the environment and no secrets file, every
    run ends at the assignment of [api_key_exists]: whatever the text,
    submitted or not, nothing is written and the store's error leaves
    the script. *)
Lemma run_without_credentials
    (endpoint : gmap (list N) (list N) -> ChatOpenAI -> list Message
                -> nat * (BaseException + str))
    (environ : gmap (list N) (list N)) (error role user_text : str)
    (submitted : bool) :
  truthy (os_getenv environ OPENAI_API_KEY) = false ->
  submission_handler endpoint environ (NoSecretsFile error) role user_text submitted
  = ([], inl (Exception error)).
Proof.
  intros He. rewrite handler_shape. cbv zeta.
  rewrite lookup_without_secrets_file by assumption. reflexivity.
Qed.

Lemma getenv_deleted (environ : gmap (list N) (list N)) :
  truthy (os_getenv (delete OPENAI_API_KEY environ) OPENAI_API_KEY) = false.
Proof. unfold os_getenv. rewrite lookup_delete_eq. reflexivity. Qed.

(** When the credential lookup returns, a blank text ends in the
    warning, whatever the lookup found. *)
Lemma blank_text_warns
    (endpoint : gmap (list N) (list N) -> ChatOpenAI -> list Message
                -> nat * (BaseException + str))
    (environ : gmap (list N) (list N)) (secrets : secrets_store)
    (role user_text : str) (found : bool) :
  forallb isspace user_text = true ->
  api_key_exists environ secrets = inr found ->
  submission_handler endpoint environ secrets role user_text true
  = ([st_warning Text.empty_input], inr tt).
Proof.
  intros Hb Hk. rewrite handler_shape. cbv zeta. rewrite Hk, Hb. reflexivity.
Qed.

(** When the lookup returns [False], a text that is not blank ends in
    the credential error. *)
Lemma missing_key_error
    (endpoint : gmap (list N) (list N) -> ChatOpenAI -> list Message
                -> nat * (BaseException + str))
    (environ : gmap (list N) (list N)) (secrets : secrets_store)
    (role user_text : str) :
  forallb isspace user_text = false ->
  api_key_exists environ secrets = inr false ->
  submission_handler endpoint environ secrets role user_text true
  = ([st_error Text.missing_key], inr tt).
Proof.
  intros Hb Hk. rewrite handler_shape. cbv zeta. rewrite Hk, Hb. reflexivity.
Qed.

(** A failure outside [Exception] is not the handler's to catch: it
    leaves the script after the request, and nothing more is written. *)
Lemma handler_system_exit
    (environ : gmap (list N) (list N)) (secrets : secrets_store)
    (role user_text msg : str) :
  forallb isspace user_text = false ->
  api_key_exists environ secrets = inr true ->
  is_Some (os_environ_after environ secrets !! OPENAI_API_KEY) ->
  outcome (submission_handler (failing (SystemExiting msg)) environ secrets
             role user_text true)
  = inl (SystemExiting msg).
Proof.
  intros Hb Hk [key He]. rewrite handler_run. cbv zeta.
  rewrite Hk, Hb, He. reflexivity.
Qed.

(** ** The claims of the specification *)

(** C1. For every user text and persona identifier, every request
    [generate_response] sends carries exactly two messages, in order: a
    system message holding the resolver's instruction for the persona,
    then a human message holding the user text exactly as given.  A
    request is sent whenever the client could be built, that is
    whenever the environment holds a key. *)
Theorem generate_response_conversation
    (endpoint : gmap (list N) (list N) -> ChatOpenAI -> list Message
                -> nat * (BaseException + str))
    (environ : gmap (list N) (list N)) (user_text expert_role : str) :
  Forall (eq [SystemMessage (system_message_for expert_role); HumanMessage user_text])
    (conversations (generate_response endpoint environ user_text expert_role))
  /\ conversations (generate_response endpoint environ user_text expert_role)
     = match environ !! OPENAI_API_KEY with
       | Some _ =>
           replicate
             (S (endpoint environ llm
                   [SystemMessage (system_message_for expert_role);
                    HumanMessage user_text]).1)
             [SystemMessage (system_message_for expert_role); HumanMessage user_text]
       | None => []
       end.
Proof.
  rewrite generate_response_run. cbv zeta.
  destruct (environ !! OPENAI_API_KEY) as [key|];
    unfold conversations, trace; cbn [fst];
    [|split; [apply Forall_nil_2 | reflexivity]].
  rewrite conversations_of_requests.
  split; [apply Forall_replicate; reflexivity | reflexivity].
Qed.

(** The example of the specification: a data scientist asked to review
    an A/B test design. *)
Example conversation_data_scientist :
  conversations (generate_response (answering []) {[ OPENAI_API_KEY := lit "sk-test" ]}
                   (lit "このA/Bテスト設計をレビューして") (lit "データサイエンティスト"))
  = [[SystemMessage Persona.data_scientist_instruction;
      HumanMessage (lit "このA/Bテスト設計をレビューして")]].
Proof. vm_compute. reflexivity. Qed.

(** The second example of the specification: an unknown persona. *)
Example conversation_unknown_role :
  conversations (generate_response (answering []) {[ OPENAI_API_KEY := lit "sk-test" ]}
                   (lit "hello") (lit "unknown-role"))
  = [[SystemMessage Persona.fallback_instruction; HumanMessage (lit "hello")]].
Proof. vm_compute. reflexivity. Qed.

(** Braces in the user text reach the provider as they are. *)
Example conversation_braces :
  conversations (generate_response (answering []) {[ OPENAI_API_KEY := lit "sk-test" ]}
                   (lit "{x} }{") (lit "unknown-role"))
  = [[SystemMessage Persona.fallback_instruction; HumanMessage (lit "{x} }{")]].
Proof. vm_compute. reflexivity. Qed.

(** A call that cannot connect is sent three times, the same
    conversation each time. *)
Example conversation_resent :
  conversations
    (generate_response (unreachable 2 (Exception (lit "Connection error.")))
       {[ OPENAI_API_KEY := lit "sk-test" ]} (lit "hello") (lit "unknown-role"))
  = replicate 3
      [SystemMessage Persona.fallback_instruction; HumanMessage (lit "hello")].
Proof. vm_compute. reflexivity. Qed.

(** C2. Every persona identifier other than the two known labels
    resolves to the one generic fallback instruction. *)
Theorem system_message_for_unknown (expert_role : str) :
  expert_role <> Persona.data_scientist ->
  expert_role <> Persona.product_manager ->
  system_message_for expert_role = Persona.fallback_instruction.
Proof. exact (system_message_for_other expert_role). Qed.

Lemma system_message_for_unknown_witness :
  lit "unknown-role" <> Persona.data_scientist
  /\ lit "unknown-role" <> Persona.product_manager
  /\ system_message_for (lit "unknown-role") = Persona.fallback_instruction.
Proof.
  assert (H1 : lit "unknown-role" <> Persona.data_scientist)
    by (vm_compute; discriminate).
  assert (H2 : lit "unknown-role" <> Persona.product_manager)
    by (vm_compute; discriminate).
  split; [exact H1|]. split; [exact H2|].
  exact (system_message_for_unknown (lit "unknown-role") H1 H2).
Defined.

(** C3. Each of the two known persona identifiers resolves to its own
    fixed instruction, which is not the fallback. *)
Theorem system_message_for_known :
  system_message_for Persona.data_scientist = Persona.data_scientist_instruction
  /\ system_message_for Persona.product_manager = Persona.product_manager_instruction
  /\ Persona.data_scientist_instruction <> Persona.fallback_instruction
  /\ Persona.product_manager_instruction <> Persona.fallback_instruction.
Proof.
  split; [exact system_message_for_data_scientist|].
  split; [exact system_message_for_product_manager|].
  split; vm_compute; discriminate.
Qed.

(** C4. At a blank submission made with no key in the environment and
    no secrets file, the script raises at the assignment of
    [api_key_exists], before the text guard: no warning is shown. *)
Theorem blank_text_without_secrets_file
    (endpoint : gmap (list N) (list N) -> ChatOpenAI -> list Message
                -> nat * (BaseException + str))
    (environ : gmap (list N) (list N)) (error role : str) :
  submission_handler endpoint (delete OPENAI_API_KEY environ) (NoSecretsFile error)
    role (lit " 　 ") true
  = ([], inl (Exception error))
  /\ warnings
       (submission_handler endpoint (delete OPENAI_API_KEY environ)
          (NoSecretsFile error) role (lit " 　 ") true) = [].
Proof.
  rewrite run_without_credentials by apply getenv_deleted.
  split; reflexivity.
Qed.

(** C5. At a submission of a text that is not blank, made with no key
    in the environment and no secrets file, the script raises at the
    assignment of [api_key_exists]: the credential error with its
    remediation text is never shown. *)
Theorem missing_key_without_secrets_file
    (endpoint : gmap (list N) (list N) -> ChatOpenAI -> list Message
                -> nat * (BaseException + str))
    (environ : gmap (list N) (list N)) (error role : str) :
  submission_handler endpoint (delete OPENAI_API_KEY environ) (NoSecretsFile error)
    role (lit "hello") true
  = ([], inl (Exception error))
  /\ errors
       (submission_handler endpoint (delete OPENAI_API_KEY environ)
          (NoSecretsFile error) role (lit "hello") true) = [].
Proof.
  rewrite run_without_credentials by apply getenv_deleted.
  split; reflexivity.
Qed.

(** With a secrets file that does not hold the key, the credential
    error is shown, and nothing is sent. *)
Lemma missing_key_with_secrets_file
    (endpoint : gmap (list N) (list N) -> ChatOpenAI -> list Message
                -> nat * (BaseException + str))
    (environ : gmap (list N) (list N)) (entries : gmap (list N) value)
    (role user_text : str) :
  environ !! OPENAI_API_KEY = None ->
  entries !! OPENAI_API_KEY = None ->
  forallb isspace user_text = false ->
  submission_handler endpoint environ (SecretsFile entries) role user_text true
  = ([st_error Text.missing_key], inr tt).
Proof.
  intros He Hs Hb. apply missing_key_error; [assumption|].
  apply api_key_absent; assumption.
Qed.

(** C6. When the text and the credential pass the guards and the call
    raises an exception, whatever its message, the handler catches it:
    after the spinner and the request it shows the error line, built
    from the fixed prefix and the exception's text, and the fixed
    troubleshooting hint, and the script ends normally. *)
Theorem remote_failure_is_caught
    (endpoint : gmap (list N) (list N) -> ChatOpenAI -> list Message
                -> nat * (BaseException + str))
    (environ : gmap (list N) (list N)) (secrets : secrets_store)
    (role user_text msg : str) :
  forallb isspace user_text = false ->
  api_key_exists environ secrets = inr true ->
  outcome (generate_response endpoint (os_environ_after environ secrets)
             user_text role) = inl (Exception msg) ->
  submission_handler endpoint environ secrets role user_text true
  = (st_spinner Text.spinner
       :: trace (generate_response endpoint (os_environ_after environ secrets)
                   user_text role)
       ++ [st_error (Text.failure_prefix ++ msg); st_info Text.troubleshooting],
     inr tt).
Proof.
  intros Hb Hk He. rewrite handler_shape. cbv zeta.
  rewrite Hk, Hb, He. reflexivity.
Qed.

Lemma remote_failure_is_caught_witness :
  forallb isspace (lit "hello") = false
  /\ api_key_exists {[ OPENAI_API_KEY := lit "sk-test" ]} (SecretsFile ∅) = inr true
  /\ outcome (generate_response (failing (Exception (lit "Connection error.")))
                (os_environ_after {[ OPENAI_API_KEY := lit "sk-test" ]} (SecretsFile ∅))
                (lit "hello") Persona.data_scientist)
     = inl (Exception (lit "Connection error."))
  /\ submission_handler (failing (Exception (lit "Connection error.")))
       {[ OPENAI_API_KEY := lit "sk-test" ]} (SecretsFile ∅) Persona.data_scientist
       (lit "hello") true
     = (st_spinner Text.spinner
          :: trace (generate_response (failing (Exception (lit "Connection error.")))
                      (os_environ_after {[ OPENAI_API_KEY := lit "sk-test" ]}
                         (SecretsFile ∅))
                      (lit "hello") Persona.data_scientist)
          ++ [st_error (Text.failure_prefix ++ lit "Connection error.");
              st_info Text.troubleshooting],
        inr tt).
Proof.
  assert (Hk : api_key_exists {[ OPENAI_API_KEY := lit "sk-test" ]} (SecretsFile ∅)
               = inr true)
    by (vm_compute; reflexivity).
  assert (Hr : outcome (generate_response (failing (Exception (lit "Connection error.")))
                          (os_environ_after {[ OPENAI_API_KEY := lit "sk-test" ]}
                             (SecretsFile ∅))
                          (lit "hello") Persona.data_scientist)
               = inl (Exception (lit "Connection error.")))
    by (vm_compute; reflexivity).
  split; [reflexivity|]. split; [exact Hk|]. split; [exact Hr|].
  exact (remote_failure_is_caught (failing (Exception (lit "Connection error.")))
           {[ OPENAI_API_KEY := lit "sk-test" ]} (SecretsFile ∅) Persona.data_scientist
           (lit "hello") (lit "Connection error.") eq_refl Hk Hr).
Defined.

(** The constructor's own failure takes the same path: a guard passed
    by a boolean secret leaves the environment without a key, the
    client cannot be built, and the run shows the generic error. *)
Example boolean_secret_run :
  submission_handler (answering (lit "hi")) ∅
    (SecretsFile {[ OPENAI_API_KEY := VBool true ]}) Persona.data_scientist
    (lit "hello") true
  = ([st_spinner Text.spinner;
      st_error (Text.failure_prefix ++ api_key_not_set);
      st_info Text.troubleshooting], inr tt).
Proof. vm_compute. reflexivity. Qed.

(** C7. At a submission of the empty text made with no credential at
    all (no key in the environment, no secrets file), the script raises
    at the assignment of [api_key_exists], which comes before both
    guards: the empty-input warning is not shown.  The same holds for
    every text, submitted or not. *)
Theorem empty_text_without_credentials
    (endpoint : gmap (list N) (list N) -> ChatOpenAI -> list Message
                -> nat * (BaseException + str))
    (environ : gmap (list N) (list N)) (error role user_text : str)
    (submitted : bool) :
  submission_handler endpoint (delete OPENAI_API_KEY environ) (NoSecretsFile error)
    role [] true
  = ([], inl (Exception error))
  /\ submission_handler endpoint (delete OPENAI_API_KEY environ)
       (NoSecretsFile error) role user_text submitted
     = ([], inl (Exception error)).
Proof.
  rewrite !run_without_credentials by apply getenv_deleted.
  split; reflexivity.
Qed.

(** Once the lookup has returned, the guards are checked in the order
    of the [if]/[elif] chain: text first, credential second, and the
    call only when both pass. *)
Lemma guards_in_order
    (endpoint : gmap (list N) (list N) -> ChatOpenAI -> list Message
                -> nat * (BaseException + str))
    (environ : gmap (list N) (list N)) (secrets : secrets_store)
    (role user_text : str) (found : bool) :
  api_key_exists environ secrets = inr found ->
  match str_truthy (strip user_text), found with
  | false, _ =>
      submission_handler endpoint environ secrets role user_text true
      = ([st_warning Text.empty_input], inr tt)
  | true, false =>
      submission_handler endpoint environ secrets role user_text true
      = ([st_error Text.missing_key], inr tt)
  | true, true =>
      exists rest,
        trace (submission_handler endpoint environ secrets role user_text true)
        = st_spinner Text.spinner :: rest
  end.
Proof.
  intros Hk. rewrite blank_not_truthy, handler_shape. cbv zeta. rewrite Hk.
  destruct (forallb isspace user_text); cbn [negb]; [reflexivity|].
  destruct found; [|reflexivity].
  destruct (outcome (generate_response _ _ _ _)) as [[msg|msg]|answer];
    eexists; reflexivity.
Qed.

(** C8. Every request is made with the same client: whatever
    [generate_response] sends, and whatever a run of the handler sends,
    is sent with model gpt-4o-mini and temperature 0.2, for every user
    text and persona; a request is sent whenever the client could be
    built. *)
Theorem client_is_fixed
    (endpoint : gmap (list N) (list N) -> ChatOpenAI -> list Message
                -> nat * (BaseException + str))
    (environ : gmap (list N) (list N)) (secrets : secrets_store)
    (role user_text : str) (submitted : bool) :
  Forall (eq {| model := lit "gpt-4o-mini"; temperature := 0.2 |})
    (clients (generate_response endpoint environ user_text role))
  /\ Forall (eq {| model := lit "gpt-4o-mini"; temperature := 0.2 |})
       (clients (submission_handler endpoint environ secrets role user_text submitted))
  /\ (clients (generate_response endpoint environ user_text role) = []
      <-> environ !! OPENAI_API_KEY = None).
Proof.
  split; [|split].
  - rewrite generate_response_run. cbv zeta.
    destruct (environ !! OPENAI_API_KEY) as [key|];
      unfold clients, trace; cbn [fst]; [|apply Forall_nil_2].
    rewrite clients_of_requests.
    apply Forall_replicate. reflexivity.
  - handler_cases endpoint environ secrets user_text submitted;
      try apply Forall_nil_2;
      (apply Forall_cons_2; [reflexivity|]);
      try (apply Forall_app_2; [|apply Forall_nil_2]);
      apply Forall_replicate; reflexivity.
  - rewrite generate_response_run. cbv zeta.
    destruct (environ !! OPENAI_API_KEY) as [key|]; unfold clients, trace; cbn [fst].
    + rewrite clients_of_requests. cbn [replicate].
      split; discriminate.
    + split; reflexivity.
Qed.

(** C9. The resolver answers every identifier: it yields an instruction
    that is never the empty string and is one of the three fixed ones,
    and the answer is a function of the identifier alone.  (Being a
    Gallina function outside the monad [M], it neither raises nor
    writes an event.) *)
Theorem system_message_for_total (expert_role : str) :
  exists instruction : str,
    system_message_for expert_role = instruction
    /\ instruction <> []
    /\ (instruction = Persona.data_scientist_instruction
        \/ instruction = Persona.product_manager_instruction
        \/ instruction = Persona.fallback_instruction)
    /\ forall again : str,
         again = expert_role -> system_message_for again = instruction.
Proof.
  exists (system_message_for expert_role).
  split; [reflexivity|]. split.
  - destruct (system_message_for_cases expert_role) as [-> | [-> | ->]];
      vm_compute; discriminate.
  - split; [apply system_message_for_cases|]. intros again ->. reflexivity.
Qed.

Lemma system_message_for_total_witness :
  exists instruction : str,
    system_message_for (lit "unknown-role") = instruction
    /\ instruction <> []
    /\ (instruction = Persona.data_scientist_instruction
        \/ instruction = Persona.product_manager_instruction
        \/ instruction = Persona.fallback_instruction)
    /\ forall again : str,
         again = lit "unknown-role" -> system_message_for again = instruction.
Proof. exact (system_message_for_total (lit "unknown-role")). Defined.

(** C10. The credential guard looks for a truthy value: it passes
    exactly when the environment holds a non-empty [OPENAI_API_KEY] or
    the secrets store holds a truthy one.  A key set to the empty
    string in both places counts as no credential: the guard fails and
    no request is sent. *)
Theorem empty_key_is_missing
    (endpoint : gmap (list N) (list N) -> ChatOpenAI -> list Message
                -> nat * (BaseException + str))
    (environ : gmap (list N) (list N)) (secrets : secrets_store)
    (entries : gmap (list N) value) (role user_text : str) :
  (api_key_exists environ secrets = inr true
   <-> (exists v, environ !! OPENAI_API_KEY = Some v /\ v <> [])
       \/ (exists stored w, secrets = SecretsFile stored
              /\ stored !! OPENAI_API_KEY = Some w /\ truthy w = true))
  /\ api_key_exists (<[OPENAI_API_KEY := []]> environ)
       (SecretsFile (<[OPENAI_API_KEY := VStr []]> entries)) = inr false
  /\ conversations
       (submission_handler endpoint (<[OPENAI_API_KEY := []]> environ)
          (SecretsFile (<[OPENAI_API_KEY := VStr []]> entries)) role user_text true)
     = [].
Proof.
  split; [apply api_key_exists_iff|].
  assert (Hk : api_key_exists (<[OPENAI_API_KEY := []]> environ)
                 (SecretsFile (<[OPENAI_API_KEY := VStr []]> entries)) = inr false).
  { unfold api_key_exists, credential_lookup, os_getenv, secrets_get.
    rewrite lookup_insert_eq. cbn [truthy str_truthy snd].
    rewrite lookup_insert_eq. reflexivity. }
  split; [exact Hk|].
  rewrite handler_shape. cbv zeta. rewrite Hk.
  destruct (forallb isspace user_text); reflexivity.
Qed.

(** * Further properties of the script *)

Example role_options_labels :
  role_options = [lit "データサイエンティスト"; lit "プロダクトマネージャー"].
Proof. vm_compute. reflexivity. Qed.

Lemma instructions_differ :
  Persona.data_scientist_instruction <> Persona.product_manager_instruction.
Proof. vm_compute. discriminate. Qed.

Section Script.

Variable endpoint :
  gmap (list N) (list N) -> ChatOpenAI -> list Message -> nat * (BaseException + str).
Variable environ : gmap (list N) (list N).
Variable secrets : secrets_store.
Variables role user_text : str.
Variable submitted : bool.

Let run : M unit :=
  submission_handler endpoint environ secrets role user_text submitted.

Let conversation : list Message :=
  [SystemMessage (system_message_for role); HumanMessage user_text].

Let call : M str :=
  generate_response endpoint (os_environ_after environ secrets) user_text role.

(** X1. A run sends requests only when the credential lookup returned
    a truthy value, the environment then holds a key for the client,
    the form was submitted and the text holds a character that is not
    whitespace.  It then sends the request once, and again as often as
    the client re-sends it; every request carries the same
    conversation, whose human message is the text as typed. *)
Theorem request_sent_exactly_when :
  conversations run
  = match api_key_exists environ secrets,
          os_environ_after environ secrets !! OPENAI_API_KEY with
    | inr true, Some _ =>
        if submitted && negb (forallb isspace user_text)
        then replicate
               (S (endpoint (os_environ_after environ secrets) llm conversation).1)
               conversation
        else []
    | _, _ => []
    end.
Proof.
  subst run conversation.
  handler_cases endpoint environ secrets user_text submitted; reflexivity.
Qed.

(** X5. The empty-input warning is the only warning a run can show, and
    it is shown exactly when the credential lookup returned and the
    form was submitted with a text that is empty or whitespace. *)
Theorem warning_shown_exactly_when :
  warnings run
  = match api_key_exists environ secrets with
    | inr _ =>
        if submitted && forallb isspace user_text then [Text.empty_input] else []
    | inl _ => []
    end.
Proof.
  subst run.
  handler_cases endpoint environ secrets user_text submitted; reflexivity.
Qed.

(** X6. The credential error is among the error banners of a run
    exactly when the form was submitted with a text that is not blank
    and the credential guard failed: the line shown for a failed call
    is never that message. *)
Theorem missing_key_error_exactly_when :
  Text.missing_key ∈ errors run
  <-> submitted = true /\ forallb isspace user_text = false
      /\ api_key_exists environ secrets = inr false.
Proof.
  subst run.
  handler_cases endpoint environ secrets user_text submitted; split;
    try (intros (? & ? & ?); discriminate);
    try (intros H; apply elem_of_nil in H; contradiction);
    try (intros H; apply list_elem_of_singleton in H; symmetry in H;
         apply failure_line_is_not_missing_key in H; contradiction).
  all: intros _;
    first [ apply list_elem_of_singleton; reflexivity | repeat split ].
Qed.

(** X7. The only text a run ever writes as the answer is what its call
    of [generate_response] returned, unchanged; no answer is written
    when the lookup raised, a guard failed, the form was not submitted,
    or the call raised. *)
Theorem answer_is_provider_reply :
  answers run
  = match api_key_exists environ secrets with
    | inr true =>
        if submitted && negb (forallb isspace user_text)
        then match outcome call with
             | inr answer => [answer]
             | inl _ => []
             end
        else []
    | _ => []
    end.
Proof.
  subst run call. rewrite generate_response_run. cbv zeta.
  handler_cases endpoint environ secrets user_text submitted; reflexivity.
Qed.


(** X9. A run ends in one of three ways: normally; at the assignment of
    [api_key_exists], by the error of the missing secrets file, when
    the environment holds no usable key; or by an exception outside
    [Exception] that the call raised.  No [Exception] raised by the
    call escapes. *)
Theorem how_a_run_ends :
  outcome run = inr tt
  \/ (exists error, secrets = NoSecretsFile error
         /\ truthy (os_getenv environ OPENAI_API_KEY) = false
         /\ outcome run = inl (Exception error))
  \/ (exists msg, outcome run = inl (SystemExiting msg)
         /\ outcome call = inl (SystemExiting msg)).
Proof.
  subst run call.
  destruct (api_key_exists environ secrets) as [e|found] eqn:Hk.
  - right; left. rewrite handler_shape. cbv zeta. rewrite Hk.
    unfold api_key_exists, credential_lookup in Hk.
    destruct (truthy (os_getenv environ OPENAI_API_KEY)); [discriminate|].
    destruct secrets as [error|entries]; [|discriminate].
    injection Hk as <-. exists error. auto.
  - rewrite handler_shape. cbv zeta. rewrite Hk.
    destruct submitted; [|left; reflexivity].
    destruct (forallb isspace user_text); [left; reflexivity|].
    destruct found; [|left; reflexivity].
    destruct (outcome (generate_response _ _ _ _)) as [[msg|msg]|answer];
      [left; reflexivity | | left; reflexivity].
    right; right. exists msg. split; reflexivity.
Qed.

End Script.

(** X2. When the guards pass and the provider answers, the run shows
    the spinner, sends the request, writes the answer heading and then
    the answer as the provider gave it, and ends normally. *)
Theorem answered_run
    (endpoint : gmap (list N) (list N) -> ChatOpenAI -> list Message
                -> nat * (BaseException + str))
    (environ : gmap (list N) (list N)) (secrets : secrets_store)
    (role user_text answer : str) :
  forallb isspace user_text = false ->
  api_key_exists environ secrets = inr true ->
  outcome (generate_response endpoint (os_environ_after environ secrets)
             user_text role) = inr answer ->
  submission_handler endpoint environ secrets role user_text true
  = (st_spinner Text.spinner
       :: trace (generate_response endpoint (os_environ_after environ secrets)
                   user_text role)
       ++ [st_markdown Text.answer_heading; st_write answer],
     inr tt).
Proof.
  intros Hb Hk Ha. rewrite handler_shape. cbv zeta.
  rewrite Hk, Hb, Ha. reflexivity.
Qed.

Lemma answered_run_witness :
  forallb isspace (lit " hello ") = false
  /\ api_key_exists ∅ (SecretsFile {[ OPENAI_API_KEY := VStr (lit "sk-test") ]})
     = inr true
  /\ outcome (generate_response (answering (lit "hi"))
                (os_environ_after ∅
                   (SecretsFile {[ OPENAI_API_KEY := VStr (lit "sk-test") ]}))
                (lit " hello ") Persona.product_manager) = inr (lit "hi")
  /\ submission_handler (answering (lit "hi")) ∅
       (SecretsFile {[ OPENAI_API_KEY := VStr (lit "sk-test") ]})
       Persona.product_manager (lit " hello ") true
     = (st_spinner Text.spinner
          :: trace (generate_response (answering (lit "hi"))
                      (os_environ_after ∅
                         (SecretsFile {[ OPENAI_API_KEY := VStr (lit "sk-test") ]}))
                      (lit " hello ") Persona.product_manager)
          ++ [st_markdown Text.answer_heading; st_write (lit "hi")],
        inr tt).
Proof.
  assert (Hk : api_key_exists ∅
                 (SecretsFile {[ OPENAI_API_KEY := VStr (lit "sk-test") ]})
               = inr true)
    by (vm_compute; reflexivity).
  assert (Ha : outcome (generate_response (answering (lit "hi"))
                          (os_environ_after ∅
                             (SecretsFile {[ OPENAI_API_KEY := VStr (lit "sk-test") ]}))
                          (lit " hello ") Persona.product_manager) = inr (lit "hi"))
    by (vm_compute; reflexivity).
  split; [reflexivity|]. split; [exact Hk|]. split; [exact Ha|].
  exact (answered_run (answering (lit "hi")) ∅
           (SecretsFile {[ OPENAI_API_KEY := VStr (lit "sk-test") ]})
           Persona.product_manager (lit " hello ") (lit "hi") eq_refl Hk Ha).
Defined.


Lemma instructions_not_fallback :
  Persona.data_scientist_instruction <> Persona.fallback_instruction
  /\ Persona.product_manager_instruction <> Persona.fallback_instruction.
Proof. split; vm_compute; discriminate. Qed.

Lemma role_options_inv (r : str) :
  r ∈ role_options -> r = Persona.data_scientist \/ r = Persona.product_manager.
Proof.
  unfold role_options. intros Hr.
  apply elem_of_cons in Hr as [Hr|Hr]; [left; exact Hr|].
  apply list_elem_of_singleton in Hr. right; exact Hr.
Qed.

(** X4. Every role the selector can return is a key of the preset
    table: it resolves to its own persona instruction, never to the
    fallback, and the two roles resolve to different instructions. *)
Theorem selectable_roles_have_presets (role other : str) :
  role ∈ role_options ->
  other ∈ role_options ->
  presets !! role = Some (system_message_for role)
  /\ system_message_for role <> Persona.fallback_instruction
  /\ (system_message_for role = system_message_for other -> role = other).
Proof.
  pose proof system_message_for_data_scientist as Hd.
  pose proof system_message_for_product_manager as Hp.
  pose proof instructions_not_fallback as [Hdf Hpf].
  pose proof instructions_differ as Hdp.
  intros Hr Ho.
  destruct (role_options_inv role Hr) as [Er | Er]; subst role;
    destruct (role_options_inv other Ho) as [Eo | Eo]; subst other.
  - rewrite Hd. split; [|split; [exact Hdf | reflexivity]].
    unfold presets.
    rewrite lookup_insert_ne by (apply not_eq_sym, personas_differ).
    apply lookup_insert_eq.
  - rewrite Hd, Hp. split; [|split; [exact Hdf | intros E; contradiction]].
    unfold presets.
    rewrite lookup_insert_ne by (apply not_eq_sym, personas_differ).
    apply lookup_insert_eq.
  - rewrite Hd, Hp. split; [|split; [exact Hpf |]].
    + unfold presets. apply lookup_insert_eq.
    + intros E. symmetry in E. contradiction.
  - rewrite Hp. split; [|split; [exact Hpf | reflexivity]].
    unfold presets. apply lookup_insert_eq.
Qed.

Lemma selectable_roles_have_presets_witness :
  Persona.data_scientist ∈ role_options
  /\ Persona.product_manager ∈ role_options
  /\ presets !! Persona.data_scientist
     = Some (system_message_for Persona.data_scientist)
  /\ system_message_for Persona.data_scientist <> Persona.fallback_instruction
  /\ (system_message_for Persona.data_scientist
      = system_message_for Persona.product_manager ->
      Persona.data_scientist = Persona.product_manager).
Proof.
  assert (H1 : Persona.data_scientist ∈ role_options)
    by apply list_elem_of_here.
  assert (H2 : Persona.product_manager ∈ role_options)
    by apply list_elem_of_further, list_elem_of_here.
  split; [exact H1|]. split; [exact H2|].
  exact (selectable_roles_have_presets Persona.data_scientist
           Persona.product_manager H1 H2).
Defined.

(** X11. An exception outside [Exception] raised by the call is not
    caught: it ends the run right after the request, and neither an
    answer nor an error banner nor the troubleshooting hint is
    written. *)
Theorem system_exit_propagates
    (endpoint : gmap (list N) (list N) -> ChatOpenAI -> list Message
                -> nat * (BaseException + str))
    (environ : gmap (list N) (list N)) (secrets : secrets_store)
    (role user_text msg : str) :
  forallb isspace user_text = false ->
  api_key_exists environ secrets = inr true ->
  outcome (generate_response endpoint (os_environ_after environ secrets)
             user_text role) = inl (SystemExiting msg) ->
  submission_handler endpoint environ secrets role user_text true
  = (st_spinner Text.spinner
       :: trace (generate_response endpoint (os_environ_after environ secrets)
                   user_text role),
     inl (SystemExiting msg)).
Proof.
  intros Hb Hk He. rewrite handler_shape. cbv zeta.
  rewrite Hk, Hb, He. reflexivity.
Qed.

Lemma system_exit_propagates_witness :
  forallb isspace (lit "hello") = false
  /\ api_key_exists {[ OPENAI_API_KEY := lit "sk-test" ]} (SecretsFile ∅) = inr true
  /\ outcome (generate_response (failing (SystemExiting (lit "interrupted")))
                (os_environ_after {[ OPENAI_API_KEY := lit "sk-test" ]} (SecretsFile ∅))
                (lit "hello") Persona.data_scientist)
     = inl (SystemExiting (lit "interrupted"))
  /\ submission_handler (failing (SystemExiting (lit "interrupted")))
       {[ OPENAI_API_KEY := lit "sk-test" ]} (SecretsFile ∅) Persona.data_scientist
       (lit "hello") true
     = (st_spinner Text.spinner
          :: trace (generate_response (failing (SystemExiting (lit "interrupted")))
                      (os_environ_after {[ OPENAI_API_KEY := lit "sk-test" ]}
                         (SecretsFile ∅))
                      (lit "hello") Persona.data_scientist),
        inl (SystemExiting (lit "interrupted"))).
Proof.
  assert (Hk : api_key_exists {[ OPENAI_API_KEY := lit "sk-test" ]} (SecretsFile ∅)
               = inr true)
    by (vm_compute; reflexivity).
  assert (Hr : outcome (generate_response (failing (SystemExiting (lit "interrupted")))
                          (os_environ_after {[ OPENAI_API_KEY := lit "sk-test" ]}
                             (SecretsFile ∅))
                          (lit "hello") Persona.data_scientist)
               = inl (SystemExiting (lit "interrupted")))
    by (vm_compute; reflexivity).
  split; [reflexivity|]. split; [exact Hk|]. split; [exact Hr|].
  exact (system_exit_propagates (failing (SystemExiting (lit "interrupted")))
           {[ OPENAI_API_KEY := lit "sk-test" ]} (SecretsFile ∅) Persona.data_scientist
           (lit "hello") (lit "interrupted") eq_refl Hk Hr).
Defined.

(** X12. An empty [OPENAI_API_KEY] in the environment does not hide a
    key held in the secrets store: the guard then passes whenever the
    stored value is truthy. *)
Theorem empty_environment_key_falls_back
    (environ : gmap (list N) (list N)) (entries : gmap (list N) value)
    (w : value) :
  truthy w = true ->
  api_key_exists (<[OPENAI_API_KEY := []]> environ)
    (SecretsFile (<[OPENAI_API_KEY := w]> entries)) = inr true.
Proof.
  intros Hw. unfold api_key_exists, credential_lookup, os_getenv, secrets_get.
  rewrite lookup_insert_eq. cbn [truthy str_truthy snd].
  rewrite lookup_insert_eq. cbn [default from_option map_result]. cbv [id].
  rewrite Hw. reflexivity.
Qed.

Lemma empty_environment_key_falls_back_witness :
  truthy (VStr (lit "sk-test")) = true
  /\ api_key_exists (<[OPENAI_API_KEY := []]> ∅)
       (SecretsFile (<[OPENAI_API_KEY := VStr (lit "sk-test")]> ∅)) = inr true.
Proof.
  split; [reflexivity|].
  exact (empty_environment_key_falls_back ∅ ∅ (VStr (lit "sk-test")) eq_refl).
Defined.

(** X13. With a role taken from the selector, whatever a run sends to
    the provider opens with one of the two persona instructions and
    carries the user text next: the fallback instruction is never
    sent. *)
Theorem selected_role_sends_persona
    (endpoint : gmap (list N) (list N) -> ChatOpenAI -> list Message
                -> nat * (BaseException + str))
    (environ : gmap (list N) (list N)) (secrets : secrets_store)
    (role user_text : str) (submitted : bool) :
  role ∈ role_options ->
  Forall (fun conversation =>
            exists instruction : str,
              conversation = [SystemMessage instruction; HumanMessage user_text]
              /\ (instruction = Persona.data_scientist_instruction
                  \/ instruction = Persona.product_manager_instruction)
              /\ instruction <> Persona.fallback_instruction)
    (conversations
       (submission_handler endpoint environ secrets role user_text submitted)).
Proof.
  intros Hr.
  assert (Hi : exists instruction : str,
             system_message_for role = instruction
             /\ (instruction = Persona.data_scientist_instruction
                 \/ instruction = Persona.product_manager_instruction)
             /\ instruction <> Persona.fallback_instruction).
  { pose proof instructions_not_fallback as [Hdf Hpf].
    destruct (role_options_inv role Hr) as [E | E]; subst role.
    - exists Persona.data_scientist_instruction.
      split; [apply system_message_for_data_scientist|].
      split; [left; reflexivity | exact Hdf].
    - exists Persona.product_manager_instruction.
      split; [apply system_message_for_product_manager|].
      split; [right; reflexivity | exact Hpf]. }
  destruct Hi as (instruction & Hi & Hcase & Hnf).
  handler_cases endpoint environ secrets user_text submitted.
  all: try apply Forall_nil_2.
  all: apply Forall_cons_2; [|apply Forall_replicate].
  all: exists instruction; rewrite Hi.
  all: split; [reflexivity|]; split; assumption.
Qed.

Lemma selected_role_sends_persona_witness :
  Persona.product_manager ∈ role_options
  /\ Forall (fun conversation =>
            exists instruction : str,
              conversation = [SystemMessage instruction; HumanMessage (lit "hello")]
              /\ (instruction = Persona.data_scientist_instruction
                  \/ instruction = Persona.product_manager_instruction)
              /\ instruction <> Persona.fallback_instruction)
    (conversations
       (submission_handler (answering (lit "hi")) {[ OPENAI_API_KEY := lit "sk-test" ]}
          (SecretsFile ∅) Persona.product_manager (lit "hello") true)).
Proof.
  assert (H : Persona.product_manager ∈ role_options)
    by apply list_elem_of_further, list_elem_of_here.
  split; [exact H|].
  exact (selected_role_sends_persona (answering (lit "hi"))
           {[ OPENAI_API_KEY := lit "sk-test" ]} (SecretsFile ∅)
           Persona.product_manager (lit "hello") true H).
Defined.

(** X14. A key held only in the secrets store, as a non-empty string,
    reaches the client: the guard passes, and reading the store has
    written the key into the environment the client is built from. *)
Theorem secret_key_reaches_client
    (environ : gmap (list N) (list N)) (entries : gmap (list N) value)
    (c : N) (key : str) :
  truthy (os_getenv environ OPENAI_API_KEY) = false ->
  entries !! OPENAI_API_KEY = Some (VStr (c :: key)) ->
  api_key_exists environ (SecretsFile entries) = inr true
  /\ os_environ_after environ (SecretsFile entries) !! OPENAI_API_KEY
     = Some (c :: key)
  /\ ChatOpenAI_init (os_environ_after environ (SecretsFile entries))
       (lit "gpt-4o-mini") 0.2 = inr llm.
Proof.
  intros He Hs.
  assert (Hx : os_environ_after environ (SecretsFile entries) !! OPENAI_API_KEY
               = Some (c :: key)).
  { unfold os_environ_after. rewrite lookup_reads_store by assumption.
    cbn [secrets_get fst]. unfold export.
    apply lookup_union_Some_l. rewrite lookup_omap, Hs. reflexivity. }
  split; [|split; [exact Hx|]].
  - unfold api_key_exists. rewrite lookup_reads_store by assumption.
    cbn [secrets_get snd]. rewrite Hs. reflexivity.
  - unfold ChatOpenAI_init. rewrite Hx. reflexivity.
Qed.

Lemma secret_key_reaches_client_witness :
  truthy (os_getenv ∅ OPENAI_API_KEY) = false
  /\ ({[ OPENAI_API_KEY := VStr (115 :: lit "k-test") ]} : gmap (list N) value)
       !! OPENAI_API_KEY = Some (VStr (115 :: lit "k-test"))
  /\ api_key_exists ∅
       (SecretsFile {[ OPENAI_API_KEY := VStr (115 :: lit "k-test") ]}) = inr true
  /\ os_environ_after ∅
       (SecretsFile {[ OPENAI_API_KEY := VStr (115 :: lit "k-test") ]})
       !! OPENAI_API_KEY = Some (115 :: lit "k-test")
  /\ ChatOpenAI_init
       (os_environ_after ∅
          (SecretsFile {[ OPENAI_API_KEY := VStr (115 :: lit "k-test") ]}))
       (lit "gpt-4o-mini") 0.2 = inr llm.
Proof.
  assert (He : truthy (os_getenv ∅ OPENAI_API_KEY) = false) by reflexivity.
  assert (Hs : ({[ OPENAI_API_KEY := VStr (115 :: lit "k-test") ]}
                : gmap (list N) value) !! OPENAI_API_KEY
               = Some (VStr (115 :: lit "k-test")))
    by apply lookup_singleton_eq.
  split; [exact He|]. split; [exact Hs|].
  exact (secret_key_reaches_client ∅
           {[ OPENAI_API_KEY := VStr (115 :: lit "k-test") ]} 115 (lit "k-test")
           He Hs).
Defined.

(** X15. A guard passed by a boolean secret, with no key in the
    environment, leaves the client without a key: a submission of a
    text that is not blank sends nothing and ends in the generic error
    line, built from the client's own error, and the hint. *)
Theorem boolean_secret_fails_at_the_client
    (endpoint : gmap (list N) (list N) -> ChatOpenAI -> list Message
                -> nat * (BaseException + str))
    (environ : gmap (list N) (list N)) (entries : gmap (list N) value)
    (role user_text : str) :
  environ !! OPENAI_API_KEY = None ->
  entries !! OPENAI_API_KEY = Some (VBool true) ->
  forallb isspace user_text = false ->
  submission_handler endpoint environ (SecretsFile entries) role user_text true
  = ([st_spinner Text.spinner;
      st_error (Text.failure_prefix ++ api_key_not_set);
      st_info Text.troubleshooting], inr tt).
Proof.
  intros He Hs Hb.
  assert (Hf : truthy (os_getenv environ OPENAI_API_KEY) = false).
  { apply getenv_falsy. left. exact He. }
  assert (Hk : api_key_exists environ (SecretsFile entries) = inr true).
  { unfold api_key_exists. rewrite lookup_reads_store by assumption.
    cbn [secrets_get snd]. rewrite Hs. reflexivity. }
  assert (Hx : os_environ_after environ (SecretsFile entries) !! OPENAI_API_KEY
               = None).
  { unfold os_environ_after. rewrite lookup_reads_store by assumption.
    cbn [secrets_get fst]. unfold export.
    apply lookup_union_None. split; [|exact He].
    rewrite lookup_omap, Hs. reflexivity. }
  rewrite handler_run. cbv zeta. rewrite Hk, Hb, Hx. reflexivity.
Qed.

Lemma boolean_secret_fails_at_the_client_witness :
  (∅ : gmap (list N) (list N)) !! OPENAI_API_KEY = None
  /\ ({[ OPENAI_API_KEY := VBool true ]} : gmap (list N) value) !! OPENAI_API_KEY
     = Some (VBool true)
  /\ forallb isspace (lit "hello") = false
  /\ submission_handler (answering (lit "hi")) ∅
       (SecretsFile {[ OPENAI_API_KEY := VBool true ]}) Persona.data_scientist
       (lit "hello") true
     = ([st_spinner Text.spinner;
         st_error (Text.failure_prefix ++ api_key_not_set);
         st_info Text.troubleshooting], inr tt).
Proof.
  assert (He : (∅ : gmap (list N) (list N)) !! OPENAI_API_KEY = None)
    by apply lookup_empty.
  assert (Hs : ({[ OPENAI_API_KEY := VBool true ]} : gmap (list N) value)
                 !! OPENAI_API_KEY = Some (VBool true))
    by apply lookup_singleton_eq.
  assert (Hb : forallb isspace (lit "hello") = false) by reflexivity.
  split; [exact He|]. split; [exact Hs|]. split; [exact Hb|].
  exact (boolean_secret_fails_at_the_client (answering (lit "hi")) ∅
           {[ OPENAI_API_KEY := VBool true ]} Persona.data_scientist (lit "hello")
           He Hs Hb).
Defined.
